(* Verification of the tezedge XDP firewall: the shared types and their
   fixed-size encodings (xdp-module/src/lib.rs), the packet classifier
   (xdp-module/src/bin/main.rs) and the blacklist commands of the control
   plane (tezedge-firewall/src/lib.rs). *)

From Stdlib Require Import ZArith List Bool Lia.
From Stdlib Require String.
Import (notations) String.
Import ListNotations.
Open Scope Z_scope.

(** * Bytes and machine integers *)

(** A [u8] is a [Z]; a fixed-size array [[u8; N]] is a list of length [N]. *)
Definition u8 := Z.

(** [r[lo..hi]] *)
Definition slice (r : list u8) (lo hi : nat) : list u8 :=
  firstn (hi - lo) (skipn lo r).

(** [r[lo..]] *)
Definition slice_from (r : list u8) (lo : nat) : list u8 := skipn lo r.

(** [r[lo..lo + src.len()].clone_from_slice(src)] *)
Definition clone_into (r : list u8) (lo : nat) (src : list u8) : list u8 :=
  firstn lo r ++ src ++ skipn (lo + length src) r.

Definition byte_of (v : Z) (k : Z) : u8 := Z.land (Z.shiftr v (8 * k)) 255.

Definition u16_to_be_bytes (v : Z) : list u8 := [byte_of v 1; byte_of v 0].
Definition u16_from_le_bytes (b0 b1 : u8) : Z := b0 + Z.shiftl b1 8.

Definition u32_to_le_bytes (v : Z) : list u8 :=
  [byte_of v 0; byte_of v 1; byte_of v 2; byte_of v 3].
Definition u32_to_be_bytes (v : Z) : list u8 :=
  [byte_of v 3; byte_of v 2; byte_of v 1; byte_of v 0].
Definition u32_from_le_bytes (b : list u8) : Z :=
  match b with
  | [b0; b1; b2; b3] =>
      b0 + Z.shiftl b1 8 + Z.shiftl b2 16 + Z.shiftl b3 24
  | _ => 0
  end.

(** * Shared types (xdp-module/src/lib.rs) *)

Record Endpoint := mkEndpoint {
  ipv4 : list u8;   (* [u8; 4] *)
  port : list u8    (* [u8; 2] *)
}.

Record EndpointPair := mkEndpointPair {
  remote : Endpoint;
  local : Endpoint
}.

Inductive EventInner :=
| ReceivedPow (b : list u8)   (* [u8; 56] *)
| NotEnoughBytesForPow
| BlockedAlreadyConnected (already_connected try_connect : Endpoint).

(** The array lengths the Rust types fix. *)
Definition endpoint_wf (e : Endpoint) : Prop :=
  length (ipv4 e) = 4%nat /\ length (port e) = 2%nat.

Definition pair_wf (p : EndpointPair) : Prop :=
  endpoint_wf (local p) /\ endpoint_wf (remote p).

Definition event_inner_wf (v : EventInner) : Prop :=
  match v with
  | ReceivedPow b => length b = 56%nat
  | NotEnoughBytesForPow => True
  | BlockedAlreadyConnected a t => endpoint_wf a /\ endpoint_wf t
  end.

(** [Status] is a bitflags set over a [u32]. *)
Definition Status := Z.
Definition BLOCKED : Status := 1.
Definition POW_SENT : Status := 2.
Definition status_empty : Status := 0.
Definition contains (s f : Status) : bool := Z.land s f =? f.
Definition status_set (s f : Status) : Status := Z.lor s f.

Module Wire.

(** [impl From<Endpoint> for [u8; 6]] *)
Definition endpoint_to_bytes (v : Endpoint) : list u8 :=
  let r := repeat 0 6 in
  let r := clone_into r 0 (ipv4 v) in
  clone_into r 4 (port v).

(** [impl From<[u8; 6]> for Endpoint] *)
Definition endpoint_of_bytes (r : list u8) : Endpoint :=
  mkEndpoint (slice r 0 4) (slice r 4 6).

(** [impl From<EndpointPair> for [u8; 12]] *)
Definition pair_to_bytes (v : EndpointPair) : list u8 :=
  let r := repeat 0 12 in
  let r := clone_into r 0 (endpoint_to_bytes (local v)) in
  clone_into r 6 (endpoint_to_bytes (remote v)).

(** [impl From<[u8; 12]> for EndpointPair] *)
Definition pair_of_bytes (r : list u8) : EndpointPair :=
  {| local := endpoint_of_bytes (slice r 0 6);
     remote := endpoint_of_bytes (slice r 6 12) |}.

(** [impl From<EventInner> for [u8; 60]] *)
Definition event_inner_to_bytes (v : EventInner) : list u8 :=
  let r := repeat 0 60 in
  match v with
  | ReceivedPow b =>
      let r := clone_into r 0 (u32_to_le_bytes 0) in
      clone_into r 4 b
  | NotEnoughBytesForPow => clone_into r 0 (u32_to_le_bytes 1)
  | BlockedAlreadyConnected already_connected try_connect =>
      let r := clone_into r 0 (u32_to_le_bytes 2) in
      let r := clone_into r 4 (endpoint_to_bytes already_connected) in
      clone_into r 10 (endpoint_to_bytes try_connect)
  end.

(** [impl From<[u8; 60]> for EventInner]; [None] is the [panic!()] arm. *)
Definition event_inner_of_bytes (r : list u8) : option EventInner :=
  let d := u32_from_le_bytes (slice r 0 4) in
  if d =? 0 then Some (ReceivedPow (slice_from r 4))
  else if d =? 1 then Some NotEnoughBytesForPow
  else if d =? 2 then
    Some (BlockedAlreadyConnected (endpoint_of_bytes (slice r 4 10))
                                  (endpoint_of_bytes (slice r 10 16)))
  else None.

End Wire.

(** * Shared state store *)

(** A BPF hash map as a finite function from keys to values. *)
Definition Map (K V : Type) := K -> option V.

Definition bytes_eq_dec : forall x y : list u8, {x = y} + {x <> y} :=
  list_eq_dec Z.eq_dec.

Definition endpoint_eq_dec : forall x y : Endpoint, {x = y} + {x <> y}.
Proof. decide equality; apply bytes_eq_dec. Defined.

Definition pair_eq_dec : forall x y : EndpointPair, {x = y} + {x <> y}.
Proof. decide equality; apply endpoint_eq_dec. Defined.

Section Maps.
Context {K V : Type} (eq_dec : forall x y : K, {x = y} + {x <> y}).

Definition map_set (m : Map K V) (k : K) (v : V) : Map K V :=
  fun k' => if eq_dec k k' then Some v else m k'.

Definition map_delete (m : Map K V) (k : K) : Map K V :=
  fun k' => if eq_dec k k' then None else m k'.

End Maps.

(** [PowBytes], with the three constructors [firewall] uses. *)
Inductive PowBytes :=
| Bytes (b : list u8)   (* [u8; 56] *)
| NotEnough
| Nothing.

(** The record [firewall] hands to [events.insert]. *)
Record Event := mkEvent {
  ev_pair : EndpointPair;
  ev_new_status : Status;
  ev_pow_bytes : PowBytes
}.

(** The maps of the program: ["list"] (remote IPv4 -> Status),
    ["status"] (EndpointPair -> Status) and the ["events"] perf map, whose
    records are kept in emission order. The per-IP map is the one the
    control plane reaches as its blacklist. *)
Record State := mkState {
  list_map : Map (list u8) Status;
  status_map : Map EndpointPair Status;
  events : list Event
}.

Definition empty_state : State := mkState (fun _ => None) (fun _ => None) [].

(** * Packet classifier (xdp-module/src/bin/main.rs) *)

(** Header fields as the classifier reads them: [saddr], [daddr] are the
    [__be32] fields and [source], [dest] the [__be16] fields, each loaded
    from the frame by the little-endian BPF target; [ihl] and [doff] are the
    4-bit header-length fields. *)
Record Ipv4Hdr := mkIpv4Hdr { ihl : nat; saddr : Z; daddr : Z }.
Record TcpHdr := mkTcpHdr { source : Z; dest : Z; doff : nat }.

(** An [XdpContext]: [hdrs] is [Some] when [ctx.transport()] is TCP and
    [ctx.ip()] is IPv4; [frame] is the data from [data_start] (offset 0) to
    [data_end]. *)
Record XdpContext := mkCtx {
  hdrs : option (Ipv4Hdr * TcpHdr);
  frame : list u8
}.

Definition data_len (ctx : XdpContext) : nat := length (frame ctx).

(** [ctx.ptr_at::<[u8; 60]>(addr)]: bounds-checked against [data_end]. *)
Definition ptr_at60 (ctx : XdpContext) (addr : nat) : option (list u8) :=
  if (addr + 60 <=? data_len ctx)%nat
  then Some (firstn 60 (skipn addr (frame ctx)))
  else None.

Inductive XdpAction := XDP_PASS | XDP_DROP.

Definition le_load16 (b0 b1 : u8) : Z := b0 + 256 * b1.
Definition le_load32 (b0 b1 b2 b3 : u8) : Z :=
  b0 + 256 * b1 + 65536 * b2 + 16777216 * b3.

(** [u16::from_le_bytes(tcp.source.to_be_bytes())] *)
Definition source_port_of (tcp : TcpHdr) : Z :=
  match u16_to_be_bytes (source tcp) with
  | [b0; b1] => u16_from_le_bytes b0 b1
  | _ => 0
  end.

Definition make_pair (ip : Ipv4Hdr) (tcp : TcpHdr) : EndpointPair :=
  {| remote := mkEndpoint (u32_to_be_bytes (saddr ip)) (u16_to_be_bytes (source tcp));
     local := mkEndpoint (u32_to_be_bytes (daddr ip)) (u16_to_be_bytes (dest tcp)) |}.

Definition headers_length (ip : Ipv4Hdr) (tcp : TcpHdr) : nat :=
  (14 + ihl ip * 4 + doff tcp * 4)%nat.

(** Step 5: the status of the remote IP, [Status::empty()] when absent. *)
Definition read_status (st : State) (key : list u8) : Status :=
  match list_map st key with
  | Some s => s
  | None => status_empty
  end.

(** Step 6: the payload window read; returns the working status and
    [pow_bytes]. *)
Definition capture (ctx : XdpContext) (hl : nat) (status : Status)
  : Status * PowBytes :=
  if negb (contains status POW_SENT) then
    if (hl <? data_len ctx)%nat then
      let pow_bytes :=
        match ptr_at60 ctx hl with
        | Some data => Bytes (skipn 4 data)
        | None => NotEnough
        end in
      (status_set status POW_SENT, pow_bytes)
    else (status, Nothing)
  else (status, Nothing).

(** Steps 7-8: compare with the per-pair entry, write both maps and emit. *)
Definition update (st : State) (pair : EndpointPair) (status : Status)
    (pow_bytes : PowBytes) : State :=
  match status_map st pair with
  | Some s => if Z.eqb status s then st
              else mkState (map_set bytes_eq_dec (list_map st) (ipv4 (remote pair)) status)
                           (map_set pair_eq_dec (status_map st) pair status)
                           (events st ++ [mkEvent pair status pow_bytes])
  | None => mkState (map_set bytes_eq_dec (list_map st) (ipv4 (remote pair)) status)
                    (map_set pair_eq_dec (status_map st) pair status)
                    (events st ++ [mkEvent pair status pow_bytes])
  end.

(** [fn firewall]; the third component is the classification ([pow_bytes])
    of an inspected packet, [None] for a packet not inspected. *)
Definition firewall_run (st : State) (ctx : XdpContext)
  : State * XdpAction * option PowBytes :=
  match hdrs ctx with
  | Some (ip, tcp) =>
      let port := source_port_of tcp in
      if (port =? 80) || (port =? 443) then (st, XDP_PASS, None)
      else
        let pair := make_pair ip tcp in
        let hl := headers_length ip tcp in
        let status := read_status st (ipv4 (remote pair)) in
        let '(status, pow_bytes) := capture ctx hl status in
        let st' := update st pair status pow_bytes in
        (st', if contains status BLOCKED then XDP_DROP else XDP_PASS, Some pow_bytes)
  | None => (st, XDP_PASS, None)
  end.

Definition firewall (st : State) (ctx : XdpContext) : State * XdpAction :=
  let '(st', act, _) := firewall_run st ctx in (st', act).

(** A sequence of classifier invocations, one per frame in order. *)
Fixpoint run (st : State) (ctxs : list XdpContext)
  : State * list (option PowBytes) :=
  match ctxs with
  | [] => (st, [])
  | ctx :: rest =>
      let '(st1, _, c) := firewall_run st ctx in
      let '(st2, cs) := run st1 rest in
      (st2, c :: cs)
  end.

(** The per-IP key of a frame the classifier inspects. *)
Definition remote_key (ctx : XdpContext) : option (list u8) :=
  match hdrs ctx with
  | Some (ip, tcp) => Some (ipv4 (remote (make_pair ip tcp)))
  | None => None
  end.

(** * Control plane: blacklist commands (tezedge-firewall/src/lib.rs) *)

Inductive IpAddr := V4 (octets : list u8) | V6 (segments : list Z).

Inductive Command := Block (ip : IpAddr) | Unblock (ip : IpAddr).

(** [fn block_ip]: [map.set(ip.octets(), 0)]; [None] is [unimplemented!()]. *)
Definition block_ip (st : State) (ip : IpAddr) : option State :=
  match ip with
  | V4 o => Some (mkState (map_set bytes_eq_dec (list_map st) o 0)
                          (status_map st) (events st))
  | V6 _ => None
  end.

(** [fn unblock_ip] *)
Definition unblock_ip (st : State) (ip : IpAddr) : option State :=
  match ip with
  | V4 o => Some (mkState (map_delete bytes_eq_dec (list_map st) o)
                          (status_map st) (events st))
  | V6 _ => None
  end.

Definition apply_command (st : State) (c : Command) : option State :=
  match c with
  | Block ip => block_ip st ip
  | Unblock ip => unblock_ip st ip
  end.

(** * Userspace event consumer (tezedge-firewall/src/lib.rs) *)

Module Consumer.

(** [struct Event] of xdp-module/src/lib.rs, as the consumer reads it. *)
Record Event := mkEvent {
  pair : EndpointPair;
  event : EventInner
}.

End Consumer.

(** The result of a raw reinterpretation of memory: a valid value, or
    undefined behaviour. *)
Inductive RawRead (A : Type) := Valid (a : A) | Undefined.
Arguments Valid {A} a.
Arguments Undefined {A}.

(** [ptr::read(event.as_ptr() as *const Event)] (tezedge-firewall/src/lib.rs:63)
    on the 60 bytes of the [event : EventInner] field of a record.
    [EventInner] is [#[repr(u32)]]: a [u32] tag at offset 0 (little-endian
    on the target), then the variant's fields in order from offset 4.  No
    length or tag check precedes the read: reading past the end of the
    buffer, or a tag that names no variant, is undefined behaviour. *)
Definition read_event_inner (r : list u8) : RawRead EventInner :=
  if Nat.ltb (length r) 60 then Undefined
  else
    let tag := u32_from_le_bytes (slice r 0 4) in
    if tag =? 0 then Valid (ReceivedPow (slice r 4 60))
    else if tag =? 1 then Valid NotEnoughBytesForPow
    else if tag =? 2 then
      Valid (BlockedAlreadyConnected (Wire.endpoint_of_bytes (slice r 4 10))
                                     (Wire.endpoint_of_bytes (slice r 10 16)))
    else Undefined.

(** [event_handler] below starts from the values [ptr::read] produced: it
    covers the records whose read is [Valid] (see [read_event_inner]); on
    any other record the consumer's behaviour is undefined. *)
Section EventHandler.

(** [check_proof_of_work(b, target)] at the configured target; [true] is
    [Ok(())]. *)
Variable check_proof_of_work : list u8 -> bool.

(** The body run for one record of the ["events"] source. *)
Definition handle_event (st : State) (ev : Consumer.Event) : option State :=
  let ip := ipv4 (remote (Consumer.pair ev)) in
  match Consumer.event ev with
  | ReceivedPow b =>
      if check_proof_of_work b then Some st else block_ip st (V4 ip)
  | NotEnoughBytesForPow => block_ip st (V4 ip)
  | BlockedAlreadyConnected _ _ => block_ip st (V4 ip)
  end.

Fixpoint handle_records (st : State) (evs : list Consumer.Event) : option State :=
  match evs with
  | [] => Some st
  | ev :: rest =>
      match handle_event st ev with
      | Some st' => handle_records st' rest
      | None => None
      end
  end.

(** [async fn event_handler]: the batches in delivery order; records under
    any name other than ["events"] are only logged. *)
Fixpoint event_handler (st : State) (batches : list (String.string * list Consumer.Event))
  : option State :=
  match batches with
  | [] => Some st
  | (name, evs) :: rest =>
      if String.eqb name "events"%string then
        match handle_records st evs with
        | Some st' => event_handler st' rest
        | None => None
        end
      else event_handler st rest
  end.

(** The records the handler blacklists: an invalid proof of work, too few
    bytes, or an already connected peer. *)
Definition event_fails (ev : Consumer.Event) : bool :=
  match Consumer.event ev with
  | ReceivedPow b => negb (check_proof_of_work b)
  | _ => true
  end.

End EventHandler.

(** * Control plane: command connections (tezedge-firewall/src/lib.rs) *)

Module Control.

Inductive SocketAddr :=
| SocketV4 (ip : list u8) (port : Z)
| SocketV6 (segments : list Z) (port : Z).

Inductive Command :=
| Block (ip : IpAddr)
| Unblock (ip : IpAddr)
| FilterLocalPort (port : Z)
| FilterRemoteAddr (a : SocketAddr)
| Disconnected (a : SocketAddr) (pk : list u8).

(** The maps the control plane writes: ["blacklist"] (inside [store]),
    ["node"], ["pending_peers"] and ["peers"]. *)
Record CtlState := mkCtl {
  store : State;
  node : Map Z Z;
  pending_peers : Map Endpoint Z;
  peers : Map (list u8) Endpoint
}.

(** One command under the lock; [None] is a panic ([unimplemented!()]). *)
Definition handle_command (s : CtlState) (c : Command) : option CtlState :=
  match c with
  | Block ip =>
      match block_ip (store s) ip with
      | Some st => Some (mkCtl st (node s) (pending_peers s) (peers s))
      | None => None
      end
  | Unblock ip =>
      match unblock_ip (store s) ip with
      | Some st => Some (mkCtl st (node s) (pending_peers s) (peers s))
      | None => None
      end
  | FilterLocalPort port =>
      Some (mkCtl (store s) (map_set Z.eq_dec (node s) port 0)
                  (pending_peers s) (peers s))
  | FilterRemoteAddr (SocketV4 ip port) =>
      Some (mkCtl (store s) (node s)
                  (map_set endpoint_eq_dec (pending_peers s)
                     (mkEndpoint ip (u16_to_be_bytes port)) 0)
                  (peers s))
  | Disconnected (SocketV4 _ _) pk =>
      Some (mkCtl (store s) (node s) (pending_peers s)
                  (map_delete bytes_eq_dec (peers s) pk))
  | _ => Some s   (* "Not implemented yet" *)
  end.

(** An item of [Framed::new(stream, CommandDecoder)]. *)
Inductive Item := Decoded (c : Command) | Malformed.

(** The task of one connection: the final maps, and [true] when the task
    ended in a panic (the remaining items are not read). *)
Fixpoint handle_connection (s : CtlState) (items : list Item) : CtlState * bool :=
  match items with
  | [] => (s, false)
  | Malformed :: rest => handle_connection s rest
  | Decoded c :: rest =>
      match handle_command s c with
      | Some s' => handle_connection s' rest
      | None => (s, true)
      end
  end.

Definition is_decoded (i : Item) : bool :=
  match i with Decoded _ => true | Malformed => false end.

End Control.

(** [u16::from_be_bytes], as [impl Debug for Endpoint] reads a port. *)
Definition u16_from_be_bytes (b0 b1 : u8) : Z := Z.shiftl b0 8 + b1.

(** * Socket permissions (tezedge-firewall/src/lib.rs) *)

Definition REQUIRED_PERMS : Z := 502.   (* 0o766 *)

(** [ensure_socket_permissions]: the socket's [st_mode] after the call, when
    [chmod] succeeds ([chmod] replaces the low 12 permission bits). *)
Definition ensure_socket_permissions (mode : Z) : Z :=
  if negb (Z.land mode 438 =? 438)   (* 0o666 *)
  then Z.lor (Z.land mode (Z.lnot 4095)) REQUIRED_PERMS
  else mode.

(** * Start-up blacklist ([fn firewall]) *)

(** The loop over [opts.blacklist] under [with_map_ref(.., "blacklist", ..)]:
    each address (already parsed) goes through [block_ip]; [None] is a
    panic of the start-up. *)
Fixpoint load_blacklist (st : State) (ips : list IpAddr) : option State :=
  match ips with
  | [] => Some st
  | ip :: rest =>
      match block_ip st ip with
      | Some st' => load_blacklist st' rest
      | None => None
      end
  end.

Definition is_v4 (ip : IpAddr) : bool :=
  match ip with V4 _ => true | V6 _ => false end.

(** * Concrete frames *)

(** A TCP/IPv4 frame from [src:sport] to [dst:dport] (wire byte order) with
    20-byte IP and TCP headers and [payload] bytes after them. *)
Definition tcp_frame (src dst : list u8) (sport dport : u8 * u8) (payload : nat)
  : XdpContext :=
  let ld4 b := match b with
               | [b0; b1; b2; b3] => le_load32 b0 b1 b2 b3
               | _ => 0
               end in
  mkCtx (Some (mkIpv4Hdr 5 (ld4 src) (ld4 dst),
               mkTcpHdr (le_load16 (fst sport) (snd sport))
                        (le_load16 (fst dport) (snd dport)) 5))
        (repeat 0 (54 + payload)).

(** * Concrete runs *)

Example source_port_4001 :
  source_port_of (mkTcpHdr (le_load16 15 161) 0 5) = 4001.
Proof. reflexivity. Qed.

Example pair_key_wire_reversed :
  ipv4 (remote (make_pair (mkIpv4Hdr 5 (le_load32 10 0 0 5) 0)
                          (mkTcpHdr 0 0 5))) = [5; 0; 0; 10].
Proof. reflexivity. Qed.

Example wire_not_enough :
  Wire.event_inner_to_bytes NotEnoughBytesForPow = 1 :: repeat 0 59.
Proof. reflexivity. Qed.

(** * Wire encodings *)

Lemma endpoint_roundtrip (e : Endpoint) :
  endpoint_wf e -> Wire.endpoint_of_bytes (Wire.endpoint_to_bytes e) = e.
Proof.
  destruct e as [ip pt]; unfold endpoint_wf; simpl; intros [Hi Hp].
  do 5 (destruct ip as [|? ip]; simpl in Hi; try discriminate).
  do 3 (destruct pt as [|? pt]; simpl in Hp; try discriminate).
  reflexivity.
Qed.

Lemma endpoint_to_bytes_shape (e : Endpoint) :
  endpoint_wf e -> Wire.endpoint_to_bytes e = ipv4 e ++ port e.
Proof.
  destruct e as [ip pt]; unfold endpoint_wf; simpl; intros [Hi Hp].
  do 5 (destruct ip as [|? ip]; simpl in Hi; try discriminate).
  do 3 (destruct pt as [|? pt]; simpl in Hp; try discriminate).
  reflexivity.
Qed.

Lemma pair_roundtrip (p : EndpointPair) :
  pair_wf p -> Wire.pair_of_bytes (Wire.pair_to_bytes p) = p.
Proof.
  destruct p as [[ri rp] [li lp]]; unfold pair_wf, endpoint_wf; simpl.
  intros [[Hli Hlp] [Hri Hrp]].
  do 5 (destruct ri as [|? ri]; simpl in Hri; try discriminate).
  do 3 (destruct rp as [|? rp]; simpl in Hrp; try discriminate).
  do 5 (destruct li as [|? li]; simpl in Hli; try discriminate).
  do 3 (destruct lp as [|? lp]; simpl in Hlp; try discriminate).
  reflexivity.
Qed.

Lemma received_pow_bytes (b : list u8) :
  length b = 56%nat ->
  Wire.event_inner_to_bytes (ReceivedPow b) = [0; 0; 0; 0] ++ b.
Proof.
  intros Hb. unfold Wire.event_inner_to_bytes, clone_into.
  rewrite Hb. simpl. rewrite app_nil_r. reflexivity.
Qed.

Lemma event_inner_roundtrip (v : EventInner) :
  event_inner_wf v -> Wire.event_inner_of_bytes (Wire.event_inner_to_bytes v) = Some v.
Proof.
  destruct v as [b| |[ai ap] [ti tp]].
  - intros Hb. rewrite (received_pow_bytes b Hb). reflexivity.
  - reflexivity.
  - unfold event_inner_wf, endpoint_wf; simpl. intros [[Hai Hap] [Hti Htp]].
    do 5 (destruct ai as [|? ai]; simpl in Hai; try discriminate).
    do 3 (destruct ap as [|? ap]; simpl in Hap; try discriminate).
    do 5 (destruct ti as [|? ti]; simpl in Hti; try discriminate).
    do 3 (destruct tp as [|? tp]; simpl in Htp; try discriminate).
    reflexivity.
Qed.

(** * Status flags *)

Lemma contains_set_pow_blocked (s : Status) :
  contains (status_set s POW_SENT) BLOCKED = contains s BLOCKED.
Proof.
  unfold contains, status_set, BLOCKED, POW_SENT.
  rewrite Z.land_lor_distr_l. change (Z.land 2 1) with 0.
  rewrite Z.lor_0_r. reflexivity.
Qed.

Lemma contains_set_pow (s : Status) :
  contains (status_set s POW_SENT) POW_SENT = true.
Proof.
  unfold contains, status_set, POW_SENT. apply Z.eqb_eq.
  apply Z.bits_inj; intro i.
  rewrite Z.land_spec, Z.lor_spec.
  destruct (Z.testbit s i), (Z.testbit 2 i); reflexivity.
Qed.

(** * The payload window read *)

(** The working status is the status read, with at most [POW_SENT] added. *)
Lemma capture_status (ctx : XdpContext) (hl : nat) (s : Status) :
  fst (capture ctx hl s) = s \/ fst (capture ctx hl s) = status_set s POW_SENT.
Proof.
  unfold capture.
  destruct (negb (contains s POW_SENT)); [|left; reflexivity].
  destruct (hl <? data_len ctx)%nat; [right|left]; reflexivity.
Qed.

Lemma capture_pow_sent (ctx : XdpContext) (hl : nat) (s : Status) :
  contains s POW_SENT = true -> capture ctx hl s = (s, Nothing).
Proof. intros H. unfold capture. rewrite H. reflexivity. Qed.

Lemma capture_blocked (ctx : XdpContext) (hl : nat) (s : Status) :
  contains (fst (capture ctx hl s)) BLOCKED = contains s BLOCKED.
Proof.
  destruct (capture_status ctx hl s) as [-> | ->];
    [reflexivity | apply contains_set_pow_blocked].
Qed.

Lemma capture_keeps_pow (ctx : XdpContext) (hl : nat) (s : Status) :
  contains s POW_SENT = true -> contains (fst (capture ctx hl s)) POW_SENT = true.
Proof. intros H. rewrite (capture_pow_sent ctx hl s H). exact H. Qed.

(** * One classifier invocation *)

Lemma firewall_run_allowlisted (st : State) (ctx : XdpContext) ip tcp :
  hdrs ctx = Some (ip, tcp) ->
  (source_port_of tcp =? 80) || (source_port_of tcp =? 443) = true ->
  firewall_run st ctx = (st, XDP_PASS, None).
Proof. intros H Hp. unfold firewall_run. rewrite H, Hp. reflexivity. Qed.

Lemma firewall_run_inspected (st : State) (ctx : XdpContext) ip tcp :
  hdrs ctx = Some (ip, tcp) ->
  (source_port_of tcp =? 80) || (source_port_of tcp =? 443) = false ->
  let pair := make_pair ip tcp in
  let w := capture ctx (headers_length ip tcp) (read_status st (ipv4 (remote pair))) in
  firewall_run st ctx =
    (update st pair (fst w) (snd w),
     if contains (fst w) BLOCKED then XDP_DROP else XDP_PASS,
     Some (snd w)).
Proof.
  intros H Hp. unfold firewall_run. rewrite H, Hp. cbv zeta.
  destruct (capture _ _ _). reflexivity.
Qed.

Lemma firewall_run_cases (st : State) (ctx : XdpContext) :
  firewall_run st ctx = (st, XDP_PASS, None) \/
  exists ip tcp, hdrs ctx = Some (ip, tcp) /\
    (source_port_of tcp =? 80) || (source_port_of tcp =? 443) = false.
Proof.
  destruct (hdrs ctx) as [[ip tcp]|] eqn:H.
  - destruct ((source_port_of tcp =? 80) || (source_port_of tcp =? 443)) eqn:Hp.
    + left. exact (firewall_run_allowlisted st ctx ip tcp H Hp).
    + right. eauto.
  - left. unfold firewall_run. rewrite H. reflexivity.
Qed.

(** Every value [update] stores is the status it was given. *)
Lemma update_list_map (st : State) pair s c k v :
  list_map (update st pair s c) k = Some v ->
  list_map st k = Some v \/ (k = ipv4 (remote pair) /\ v = s).
Proof.
  assert (Hw : map_set bytes_eq_dec (list_map st) (ipv4 (remote pair)) s k = Some v ->
               list_map st k = Some v \/ (k = ipv4 (remote pair) /\ v = s)).
  { unfold map_set. destruct (bytes_eq_dec _ k) as [->|]; [|auto].
    intros Hv; injection Hv; auto. }
  unfold update. destruct (status_map st pair) as [s0|]; [|exact Hw].
  destruct (s =? s0); [auto | exact Hw].
Qed.

Lemma update_status_map (st : State) pair s c p v :
  status_map (update st pair s c) p = Some v ->
  status_map st p = Some v \/ (p = pair /\ v = s).
Proof.
  assert (Hw : map_set pair_eq_dec (status_map st) pair s p = Some v ->
               status_map st p = Some v \/ (p = pair /\ v = s)).
  { unfold map_set. destruct (pair_eq_dec _ p) as [->|]; [|auto].
    intros Hv; injection Hv; auto. }
  unfold update. destruct (status_map st pair) as [s0|] eqn:E; [|exact Hw].
  destruct (s =? s0); [auto | exact Hw].
Qed.

Lemma update_read_status (st : State) pair s c k :
  read_status (update st pair s c) k = read_status st k \/
  (k = ipv4 (remote pair) /\ read_status (update st pair s c) k = s).
Proof.
  assert (Hw : read_status (mkState (map_set bytes_eq_dec (list_map st) (ipv4 (remote pair)) s)
                                    (map_set pair_eq_dec (status_map st) pair s)
                                    (events st ++ [mkEvent pair s c])) k = read_status st k \/
               (k = ipv4 (remote pair) /\
                read_status (mkState (map_set bytes_eq_dec (list_map st) (ipv4 (remote pair)) s)
                                     (map_set pair_eq_dec (status_map st) pair s)
                                     (events st ++ [mkEvent pair s c])) k = s)).
  { unfold read_status; simpl; unfold map_set.
    destruct (bytes_eq_dec _ k) as [->|]; auto. }
  unfold update. destruct (status_map st pair) as [s0|]; [|exact Hw].
  destruct (s =? s0); [left; reflexivity | exact Hw].
Qed.

(** [POW_SENT] in the per-IP map survives any invocation. *)
Lemma firewall_run_keeps_pow (st : State) (ctx : XdpContext) (k : list u8) :
  contains (read_status st k) POW_SENT = true ->
  contains (read_status (fst (fst (firewall_run st ctx))) k) POW_SENT = true.
Proof.
  intros H.
  destruct (firewall_run_cases st ctx) as [-> | (ip & tcp & Hh & Hp)]; [exact H|].
  rewrite (firewall_run_inspected st ctx ip tcp Hh Hp). cbn [fst].
  destruct (update_read_status st (make_pair ip tcp)
              (fst (capture ctx (headers_length ip tcp)
                      (read_status st (ipv4 (remote (make_pair ip tcp))))))
              (snd (capture ctx (headers_length ip tcp)
                      (read_status st (ipv4 (remote (make_pair ip tcp))))))
              k) as [-> | [Hk ->]]; [exact H|].
  apply capture_keeps_pow. rewrite <- Hk. exact H.
Qed.

(** A frame from an IP with [POW_SENT] is classified [Nothing]. *)
Lemma firewall_run_pow_nothing (st : State) (ctx : XdpContext) (k : list u8) :
  remote_key ctx = Some k ->
  contains (read_status st k) POW_SENT = true ->
  forall x, snd (firewall_run st ctx) = Some x -> x = Nothing.
Proof.
  intros Hk H x Hx.
  destruct (firewall_run_cases st ctx) as [E | (ip & tcp & Hh & Hp)].
  - rewrite E in Hx. discriminate.
  - rewrite (firewall_run_inspected st ctx ip tcp Hh Hp) in Hx. cbn [snd] in Hx.
    unfold remote_key in Hk. rewrite Hh in Hk. injection Hk as Hk.
    change (ipv4 (remote (make_pair ip tcp)) = k) in Hk.
    rewrite Hk, (capture_pow_sent _ _ _ H) in Hx. injection Hx. auto.
Qed.

(** * Claims *)

(** C8: for every well-formed [Endpoint], [EndpointPair] and [EventInner],
    decoding the fixed-size encoding (6, 12 and 60 bytes) gives back the
    value. *)
Theorem C8_wire_roundtrip :
  (forall e, endpoint_wf e -> Wire.endpoint_of_bytes (Wire.endpoint_to_bytes e) = e) /\
  (forall p, pair_wf p -> Wire.pair_of_bytes (Wire.pair_to_bytes p) = p) /\
  (forall v, event_inner_wf v ->
     Wire.event_inner_of_bytes (Wire.event_inner_to_bytes v) = Some v).
Proof.
  split; [exact endpoint_roundtrip|split; [exact pair_roundtrip|exact event_inner_roundtrip]].
Qed.

Definition ep_10_0_0_5 : Endpoint := mkEndpoint [10; 0; 0; 5] [15; 161].
Definition ep_10_0_0_1 : Endpoint := mkEndpoint [10; 0; 0; 1] [38; 4].

Lemma C8_witness :
  Wire.event_inner_of_bytes
    (Wire.event_inner_to_bytes (BlockedAlreadyConnected ep_10_0_0_5 ep_10_0_0_1)) =
  Some (BlockedAlreadyConnected ep_10_0_0_5 ep_10_0_0_1).
Proof.
  apply (proj2 (proj2 C8_wire_roundtrip)).
  unfold event_inner_wf, endpoint_wf; simpl; tauto.
Defined.

(** C3 (code bug): the Event Consumer decodes a record with an unchecked
    [ptr::read], not with a bounds-checked decoder.  For a record shorter
    than 60 bytes, or whose little-endian discriminant is not 0, 1 or 2, the
    read has no defined result: it yields no decode error value, it is
    undefined behaviour. *)
Theorem C3_consumer_read_undefined (r : list u8) :
  (length r < 60)%nat \/ ~ In (u32_from_le_bytes (slice r 0 4)) [0; 1; 2] ->
  read_event_inner r = Undefined.
Proof.
  intros H. unfold read_event_inner.
  destruct (Nat.ltb_spec (length r) 60) as [Hl|Hl]; [reflexivity|].
  destruct H as [H|H]; [lia|]. cbn zeta.
  destruct (Z.eqb_spec (u32_from_le_bytes (slice r 0 4)) 0) as [E|];
    [exfalso; apply H; rewrite E; left; reflexivity|].
  destruct (Z.eqb_spec (u32_from_le_bytes (slice r 0 4)) 1) as [E|];
    [exfalso; apply H; rewrite E; right; left; reflexivity|].
  destruct (Z.eqb_spec (u32_from_le_bytes (slice r 0 4)) 2) as [E|];
    [exfalso; apply H; rewrite E; right; right; left; reflexivity|].
  reflexivity.
Qed.

Lemma C3_witness :
  read_event_inner (u32_to_le_bytes 3 ++ repeat 0 56) = Undefined.
Proof.
  apply C3_consumer_read_undefined. right. vm_compute. intros [H|[H|[H|[]]]]; discriminate.
Defined.

(** Concrete frames used by the witnesses: 10.0.0.5:4001 -> 10.0.0.1:9732. *)
Definition frame_payload (n : nat) : XdpContext :=
  tcp_frame [10; 0; 0; 5] [10; 0; 0; 1] (15, 161) (38, 4) n.

(** C4: for every inspected IPv4/TCP frame, the action is DROP exactly when
    [BLOCKED] is set in the status read for the remote IP before the
    working copy is updated, and PASS otherwise. *)
Theorem C4_drop_iff_blocked_on_read (st : State) (ctx : XdpContext) ip tcp :
  hdrs ctx = Some (ip, tcp) ->
  source_port_of tcp <> 80 -> source_port_of tcp <> 443 ->
  snd (firewall st ctx) =
    if contains (read_status st (ipv4 (remote (make_pair ip tcp)))) BLOCKED
    then XDP_DROP else XDP_PASS.
Proof.
  intros Hh H80 H443.
  assert (Hp : (source_port_of tcp =? 80) || (source_port_of tcp =? 443) = false).
  { apply orb_false_iff; split; apply Z.eqb_neq; assumption. }
  unfold firewall. rewrite (firewall_run_inspected st ctx ip tcp Hh Hp).
  cbn [snd]. rewrite capture_blocked. reflexivity.
Qed.

Lemma C4_witness :
  snd (firewall (mkState (fun _ => Some BLOCKED) (fun _ => None) []) (frame_payload 100))
  = XDP_DROP.
Proof.
  rewrite (C4_drop_iff_blocked_on_read _ _ (mkIpv4Hdr 5 (le_load32 10 0 0 5) (le_load32 10 0 0 1))
             (mkTcpHdr (le_load16 15 161) (le_load16 38 4) 5));
    [reflexivity | reflexivity | vm_compute; discriminate | vm_compute; discriminate].
Defined.

(** C5: over any sequence of invocations, once the per-IP entry of [ip]
    has [POW_SENT], it keeps it, and every later frame from [ip] that is
    classified is classified [Nothing] (no proof-of-work bytes captured). *)
Theorem C5_pow_sent_monotone (st : State) (ip : list u8) (ctxs : list XdpContext) :
  contains (read_status st ip) POW_SENT = true ->
  contains (read_status (fst (run st ctxs)) ip) POW_SENT = true /\
  Forall (fun cc => remote_key (fst cc) = Some ip ->
                    forall x, snd cc = Some x -> x = Nothing)
         (combine ctxs (snd (run st ctxs))).
Proof.
  revert st. induction ctxs as [|ctx rest IH]; intros st H.
  - split; [exact H | constructor].
  - simpl.
    destruct (firewall_run st ctx) as [[st1 a] c] eqn:E.
    assert (H1 : contains (read_status st1 ip) POW_SENT = true).
    { pose proof (firewall_run_keeps_pow st ctx ip H) as K. rewrite E in K. exact K. }
    destruct (IH st1 H1) as [IH1 IH2].
    destruct (run st1 rest) as [st2 cs] eqn:E2. simpl in *.
    split; [exact IH1|]. constructor; [|exact IH2].
    simpl. intros Hk x Hx.
    apply (firewall_run_pow_nothing st ctx ip Hk H). rewrite E. exact Hx.
Qed.

Lemma C5_witness :
  snd (run (mkState (fun _ => Some POW_SENT) (fun _ => None) [])
           [frame_payload 100; frame_payload 0]) = [Some Nothing; Some Nothing] /\
  contains (read_status (fst (run (mkState (fun _ => Some POW_SENT) (fun _ => None) [])
                                  [frame_payload 100; frame_payload 0])) [5; 0; 0; 10])
           POW_SENT = true.
Proof.
  split; [vm_compute; reflexivity|].
  apply (C5_pow_sent_monotone (mkState (fun _ => Some POW_SENT) (fun _ => None) [])).
  reflexivity.
Defined.

(** C6 (counterexample): a frame with 10 payload bytes after the headers is
    too short for the 60-byte window, yet the per-IP entry gets [POW_SENT]
    (classification [NotEnough]); a frame with no payload is classified
    [Nothing], not [NotEnough]. *)
Lemma C6_counterexample :
  ptr_at60 (frame_payload 10) 54 = None /\
  snd (firewall_run empty_state (frame_payload 10)) = Some NotEnough /\
  list_map (fst (fst (firewall_run empty_state (frame_payload 10)))) [5; 0; 0; 10]
    = Some POW_SENT /\
  ptr_at60 (frame_payload 0) 54 = None /\
  snd (firewall_run empty_state (frame_payload 0)) = Some Nothing.
Proof. vm_compute. repeat split. Qed.

(** C6 (amended): for a status without [POW_SENT], at header length [hl]:
    a 60-byte window that fits gives [Bytes] of its last 56 bytes and sets
    [POW_SENT]; some payload but less than the window gives [NotEnough] and
    also sets [POW_SENT]; no payload at all gives [Nothing] and leaves the
    status as it was. *)
Theorem C6_capture_cases (ctx : XdpContext) (hl : nat) (s : Status) :
  contains s POW_SENT = false ->
  ((hl + 60 <= data_len ctx)%nat ->
     capture ctx hl s =
       (status_set s POW_SENT, Bytes (skipn 4 (firstn 60 (skipn hl (frame ctx)))))) /\
  ((hl < data_len ctx < hl + 60)%nat ->
     capture ctx hl s = (status_set s POW_SENT, NotEnough)) /\
  ((data_len ctx <= hl)%nat -> capture ctx hl s = (s, Nothing)).
Proof.
  intros H. unfold capture, ptr_at60. rewrite H. cbn [negb].
  repeat split; intros Hl.
  - replace (hl <? data_len ctx)%nat with true by (symmetry; apply Nat.ltb_lt; lia).
    replace (hl + 60 <=? data_len ctx)%nat with true by (symmetry; apply Nat.leb_le; lia).
    reflexivity.
  - replace (hl <? data_len ctx)%nat with true by (symmetry; apply Nat.ltb_lt; lia).
    replace (hl + 60 <=? data_len ctx)%nat with false by (symmetry; apply Nat.leb_gt; lia).
    reflexivity.
  - replace (hl <? data_len ctx)%nat with false by (symmetry; apply Nat.ltb_ge; lia).
    reflexivity.
Qed.

Lemma C6_witness :
  capture (frame_payload 100) 54 status_empty =
    (status_set status_empty POW_SENT, Bytes (repeat 0 56)).
Proof.
  rewrite (proj1 (C6_capture_cases (frame_payload 100) 54 status_empty eq_refl)).
  - reflexivity.
  - vm_compute. lia.
Defined.

(** C7: a TCP frame whose source port (wire bytes [b0], [b1] in network
    order) is 80 or 443 passes with no inspection: no classification, no
    map write and no event. *)
Theorem C7_port_allowlist (st : State) (ctx : XdpContext) ip tcp (b0 b1 : u8) :
  hdrs ctx = Some (ip, tcp) ->
  0 <= b0 < 256 -> 0 <= b1 < 256 ->
  source tcp = le_load16 b0 b1 ->
  256 * b0 + b1 = 80 \/ 256 * b0 + b1 = 443 ->
  firewall_run st ctx = (st, XDP_PASS, None).
Proof.
  intros Hh R0 R1 Hs Hport. apply (firewall_run_allowlisted st ctx ip tcp Hh).
  unfold source_port_of. rewrite Hs.
  destruct Hport as [Hport | Hport].
  - assert (b0 = 0 /\ b1 = 80) as [-> ->] by lia. reflexivity.
  - assert (b0 = 1 /\ b1 = 187) as [-> ->] by lia. reflexivity.
Qed.

Lemma C7_witness :
  firewall_run (mkState (fun _ => Some BLOCKED) (fun _ => None) [])
               (tcp_frame [10; 0; 0; 5] [10; 0; 0; 1] (1, 187) (38, 4) 100) =
  (mkState (fun _ => Some BLOCKED) (fun _ => None) [], XDP_PASS, None).
Proof.
  apply (C7_port_allowlist _ _ (mkIpv4Hdr 5 (le_load32 10 0 0 5) (le_load32 10 0 0 1))
           (mkTcpHdr (le_load16 1 187) (le_load16 38 4) 5) 1 187);
    [reflexivity | lia | lia | reflexivity | lia].
Defined.

(** C9: for an inspected frame, if the fresh status equals the per-pair
    entry the invocation changes nothing; otherwise it writes the fresh
    status under the remote IP and under the pair, and emits exactly one
    event carrying the pair, the status and the classification. *)
Theorem C9_update_iff_changed (st : State) (ctx : XdpContext) ip tcp :
  hdrs ctx = Some (ip, tcp) ->
  source_port_of tcp <> 80 -> source_port_of tcp <> 443 ->
  let pair := make_pair ip tcp in
  let w := capture ctx (headers_length ip tcp) (read_status st (ipv4 (remote pair))) in
  let st' := fst (fst (firewall_run st ctx)) in
  (status_map st pair = Some (fst w) -> st' = st) /\
  (status_map st pair <> Some (fst w) ->
     list_map st' = map_set bytes_eq_dec (list_map st) (ipv4 (remote pair)) (fst w) /\
     status_map st' = map_set pair_eq_dec (status_map st) pair (fst w) /\
     events st' = events st ++ [mkEvent pair (fst w) (snd w)]).
Proof.
  intros Hh H80 H443.
  assert (Hp : (source_port_of tcp =? 80) || (source_port_of tcp =? 443) = false).
  { apply orb_false_iff; split; apply Z.eqb_neq; assumption. }
  cbv zeta. rewrite (firewall_run_inspected st ctx ip tcp Hh Hp). cbn [fst].
  unfold update.
  split; intros Hs.
  - rewrite Hs, Z.eqb_refl. reflexivity.
  - destruct (status_map st (make_pair ip tcp)) as [s0|] eqn:E.
    + destruct (Z.eqb_spec (fst (capture ctx (headers_length ip tcp)
                   (read_status st (ipv4 (remote (make_pair ip tcp)))))) s0) as [Heq|].
      * exfalso. apply Hs. rewrite Heq. reflexivity.
      * repeat split.
    + repeat split.
Qed.

Lemma C9_witness :
  let st1 := fst (fst (firewall_run empty_state (frame_payload 100))) in
  fst (fst (firewall_run st1 (frame_payload 100))) = st1.
Proof.
  cbv zeta.
  apply (proj1 (C9_update_iff_changed _ (frame_payload 100)
                  (mkIpv4Hdr 5 (le_load32 10 0 0 5) (le_load32 10 0 0 1))
                  (mkTcpHdr (le_load16 15 161) (le_load16 38 4) 5)
                  eq_refl ltac:(vm_compute; discriminate) ltac:(vm_compute; discriminate))).
  vm_compute. reflexivity.
Defined.

(** C10: every status an invocation stores in the per-IP or per-pair map
    has the same [BLOCKED] bit as the status it read for the remote IP. *)
Theorem C10_blocked_bit_preserved (st : State) (ctx : XdpContext) ip tcp :
  hdrs ctx = Some (ip, tcp) ->
  let r := read_status st (ipv4 (remote (make_pair ip tcp))) in
  let st' := fst (fst (firewall_run st ctx)) in
  (forall k v, list_map st' k = Some v ->
     list_map st k = Some v \/ contains v BLOCKED = contains r BLOCKED) /\
  (forall p v, status_map st' p = Some v ->
     status_map st p = Some v \/ contains v BLOCKED = contains r BLOCKED).
Proof.
  intros Hh. cbv zeta.
  destruct ((source_port_of tcp =? 80) || (source_port_of tcp =? 443)) eqn:Hp.
  - rewrite (firewall_run_allowlisted st ctx ip tcp Hh Hp). cbn [fst]. auto.
  - rewrite (firewall_run_inspected st ctx ip tcp Hh Hp). cbn [fst].
    split.
    + intros k v Hv. apply update_list_map in Hv as [Hv | [_ ->]]; [auto|].
      right. apply capture_blocked.
    + intros p v Hv. apply update_status_map in Hv as [Hv | [_ ->]]; [auto|].
      right. apply capture_blocked.
Qed.

Lemma C10_witness :
  list_map (fst (fst (firewall_run (mkState (fun _ => Some BLOCKED) (fun _ => None) [])
                                   (frame_payload 100)))) [5; 0; 0; 10] = Some 3 /\
  contains 3 BLOCKED = contains (read_status (mkState (fun _ => Some BLOCKED) (fun _ => None) [])
                                             [5; 0; 0; 10]) BLOCKED.
Proof.
  split; [vm_compute; reflexivity|].
  destruct (proj1 (C10_blocked_bit_preserved (mkState (fun _ => Some BLOCKED) (fun _ => None) [])
                     (frame_payload 100)
                     (mkIpv4Hdr 5 (le_load32 10 0 0 5) (le_load32 10 0 0 1))
                     (mkTcpHdr (le_load16 15 161) (le_load16 38 4) 5) eq_refl)
                  [5; 0; 0; 10] 3 ltac:(vm_compute; reflexivity)) as [E | E].
  - vm_compute in E. discriminate.
  - exact E.
Defined.

(** C1 (failing run): after [Block(10.0.0.10)] the per-IP map holds an
    entry for 10.0.0.10, but it is the value 0 (no [BLOCKED] bit), and the
    next frame from 10.0.0.10:4001 to 10.0.0.1:9732 passes. *)
Lemma C1_block_then_frame_passes :
  exists st1,
    apply_command empty_state (Block (V4 [10; 0; 0; 10])) = Some st1 /\
    list_map st1 [10; 0; 0; 10] = Some 0 /\
    remote_key (tcp_frame [10; 0; 0; 10] [10; 0; 0; 1] (15, 161) (38, 4) 100)
      = Some [10; 0; 0; 10] /\
    snd (firewall st1 (tcp_frame [10; 0; 0; 10] [10; 0; 0; 1] (15, 161) (38, 4) 100))
      = XDP_PASS.
Proof.
  eexists. split; [reflexivity|].
  split; [reflexivity|]. split; vm_compute; reflexivity.
Qed.

(** * Further properties of the code *)

(** ** Byte arithmetic *)

Lemma byte_of_spec (v k : Z) :
  0 <= k -> byte_of v k = (v / 2 ^ (8 * k)) mod 256.
Proof.
  intros Hk. unfold byte_of. rewrite Z.shiftr_div_pow2 by lia.
  change 255 with (Z.ones 8). rewrite Z.land_ones by lia. reflexivity.
Qed.

Lemma byte_pick (v m r x y : Z) :
  0 < m -> 0 <= r < m -> 0 <= x < 256 -> v = m * (x + 256 * y) + r ->
  (v / m) mod 256 = x.
Proof.
  intros Hm Hr Hx Hv.
  assert (Hq : v / m = x + 256 * y) by (symmetry; apply Z.div_unique with r; lia).
  rewrite Hq. symmetry. apply Z.mod_unique with y; lia.
Qed.

Ltac eval_pow8 :=
  repeat match goal with
  | |- context [2 ^ (8 * ?k)] =>
      let v := eval vm_compute in (2 ^ (8 * k)) in change (2 ^ (8 * k)) with v
  end.

(** The classifier's port is the network-order source port, for every
    pair of wire bytes. *)
Theorem X_source_port_of_wire (b0 b1 : u8) (d : Z) (o : nat) :
  0 <= b0 < 256 -> 0 <= b1 < 256 ->
  source_port_of (mkTcpHdr (le_load16 b0 b1) d o) = 256 * b0 + b1.
Proof.
  intros R0 R1. unfold source_port_of, u16_to_be_bytes, u16_from_le_bytes, le_load16.
  cbn [source]. rewrite !byte_of_spec by lia. eval_pow8.
  rewrite Z.shiftl_mul_pow2 by lia. change (2 ^ 8) with 256.
  rewrite (byte_pick _ 256 b0 b1 0), (byte_pick _ 1 0 b0 b1); lia.
Qed.

Lemma X_source_port_of_wire_witness :
  source_port_of (mkTcpHdr (le_load16 38 4) 0 5) = 9732.
Proof. rewrite X_source_port_of_wire by lia. reflexivity. Defined.

(** The remote endpoint the classifier keys on holds the wire bytes of the
    source address and of the source port in reverse order. *)
Theorem X_make_pair_remote_reversed (a b c d p q : u8) n daddr dest o :
  0 <= a < 256 -> 0 <= b < 256 -> 0 <= c < 256 -> 0 <= d < 256 ->
  0 <= p < 256 -> 0 <= q < 256 ->
  remote (make_pair (mkIpv4Hdr n (le_load32 a b c d) daddr) (mkTcpHdr (le_load16 p q) dest o))
  = mkEndpoint [d; c; b; a] [q; p].
Proof.
  intros Ra Rb Rc Rd Rp Rq.
  unfold make_pair, u32_to_be_bytes, u16_to_be_bytes, le_load32, le_load16.
  cbn [remote saddr source]. rewrite !byte_of_spec by lia. eval_pow8.
  rewrite (byte_pick _ 16777216 (a + 256 * b + 65536 * c) d 0),
          (byte_pick _ 65536 (a + 256 * b) c d),
          (byte_pick _ 256 a b (c + 256 * d)),
          (byte_pick _ 1 0 a (b + 256 * c + 65536 * d)),
          (byte_pick _ 256 p q 0), (byte_pick _ 1 0 p q); [reflexivity | lia ..].
Qed.

Lemma X_make_pair_remote_reversed_witness :
  remote (make_pair (mkIpv4Hdr 5 (le_load32 10 0 0 5) 0) (mkTcpHdr (le_load16 15 161) 0 5))
  = mkEndpoint [5; 0; 0; 10] [161; 15].
Proof. apply X_make_pair_remote_reversed; lia. Defined.

(** ** Wire encodings over their whole byte domain *)

(** Every 6-byte array is the encoding of the [Endpoint] it decodes to. *)
Theorem X_endpoint_bytes_roundtrip (r : list u8) :
  length r = 6%nat -> Wire.endpoint_to_bytes (Wire.endpoint_of_bytes r) = r.
Proof.
  intros H. do 7 (destruct r as [|? r]; simpl in H; try discriminate).
  reflexivity.
Qed.

Lemma X_endpoint_bytes_roundtrip_witness :
  Wire.endpoint_to_bytes (Wire.endpoint_of_bytes [10; 0; 0; 5; 15; 161]) = [10; 0; 0; 5; 15; 161].
Proof. apply X_endpoint_bytes_roundtrip. reflexivity. Defined.

(** Every 12-byte array is the encoding of the [EndpointPair] it decodes to. *)
Theorem X_pair_bytes_roundtrip (r : list u8) :
  length r = 12%nat -> Wire.pair_to_bytes (Wire.pair_of_bytes r) = r.
Proof.
  intros H. do 13 (destruct r as [|? r]; simpl in H; try discriminate).
  reflexivity.
Qed.

Lemma X_pair_bytes_roundtrip_witness :
  Wire.pair_to_bytes (Wire.pair_of_bytes [10; 0; 0; 1; 38; 4; 10; 0; 0; 5; 15; 161])
  = [10; 0; 0; 1; 38; 4; 10; 0; 0; 5; 15; 161].
Proof. apply X_pair_bytes_roundtrip. reflexivity. Defined.

(** The encodings of well-formed values are 6, 12 and 60 bytes long. *)
Theorem X_encoding_lengths :
  (forall e, endpoint_wf e -> length (Wire.endpoint_to_bytes e) = 6%nat) /\
  (forall p, pair_wf p -> length (Wire.pair_to_bytes p) = 12%nat) /\
  (forall v, event_inner_wf v -> length (Wire.event_inner_to_bytes v) = 60%nat).
Proof.
  split; [|split].
  - intros e He. rewrite endpoint_to_bytes_shape by exact He.
    destruct He as [Hi Hp]. rewrite length_app, Hi, Hp. reflexivity.
  - intros [[ri rp] [li lp]]; unfold pair_wf, endpoint_wf; simpl.
    intros [[Hli Hlp] [Hri Hrp]].
    do 5 (destruct ri as [|? ri]; simpl in Hri; try discriminate).
    do 3 (destruct rp as [|? rp]; simpl in Hrp; try discriminate).
    do 5 (destruct li as [|? li]; simpl in Hli; try discriminate).
    do 3 (destruct lp as [|? lp]; simpl in Hlp; try discriminate).
    reflexivity.
  - intros [b| |[ai ap] [ti tp]] Hv.
    + rewrite (received_pow_bytes b Hv). rewrite length_app. cbn in Hv |- *. cbv [u8] in *. lia.
    + reflexivity.
    + destruct Hv as [[Hai Hap] [Hti Htp]]; simpl in *.
      do 5 (destruct ai as [|? ai]; simpl in Hai; try discriminate).
      do 3 (destruct ap as [|? ap]; simpl in Hap; try discriminate).
      do 5 (destruct ti as [|? ti]; simpl in Hti; try discriminate).
      do 3 (destruct tp as [|? tp]; simpl in Htp; try discriminate).
      reflexivity.
Qed.

Lemma X_encoding_lengths_witness :
  length (Wire.event_inner_to_bytes (BlockedAlreadyConnected ep_10_0_0_5 ep_10_0_0_1)) = 60%nat.
Proof.
  apply (proj2 (proj2 X_encoding_lengths)).
  unfold event_inner_wf, endpoint_wf; simpl; tauto.
Defined.

(** ** Classifier: map entries and the event log *)

Lemma update_status_map_self (st : State) pair s c :
  status_map (update st pair s c) pair = Some s.
Proof.
  unfold update. destruct (status_map st pair) as [s0|] eqn:E.
  - destruct (Z.eqb_spec s s0) as [->|]; [exact E|].
    simpl. unfold map_set. destruct (pair_eq_dec pair pair); congruence.
  - simpl. unfold map_set. destruct (pair_eq_dec pair pair); congruence.
Qed.

Lemma update_events (st : State) pair s c :
  events (update st pair s c) = events st \/
  events (update st pair s c) = events st ++ [mkEvent pair s c].
Proof.
  unfold update. destruct (status_map st pair) as [s0|]; [destruct (s =? s0)|]; auto.
Qed.

Lemma update_keeps_pair (st : State) pair s c p v :
  status_map st p = Some v -> exists v', status_map (update st pair s c) p = Some v'.
Proof.
  intros H. unfold update.
  destruct (status_map st pair) as [s0|]; [destruct (s =? s0); [eauto|]|];
    simpl; unfold map_set; destruct (pair_eq_dec pair p); eauto.
Qed.

Lemma firewall_run_keeps_pairs (st : State) (ctx : XdpContext) p :
  status_map st p <> None -> status_map (fst (fst (firewall_run st ctx))) p <> None.
Proof.
  intros H.
  destruct (firewall_run_cases st ctx) as [-> | (ip & tcp & Hh & Hp)]; [exact H|].
  rewrite (firewall_run_inspected st ctx ip tcp Hh Hp). cbn [fst].
  destruct (status_map st p) as [v|] eqn:E0; [|contradiction].
  destruct (update_keeps_pair st (make_pair ip tcp)
              (fst (capture ctx (headers_length ip tcp)
                      (read_status st (ipv4 (remote (make_pair ip tcp))))))
              (snd (capture ctx (headers_length ip tcp)
                      (read_status st (ipv4 (remote (make_pair ip tcp))))))
              p v E0) as [v' ->].
  discriminate.
Qed.

(** After an inspected frame, the per-pair map has an entry for the frame's
    pair holding the freshly computed status. *)
Theorem X_inspected_pair_entry (st : State) (ctx : XdpContext) ip tcp :
  hdrs ctx = Some (ip, tcp) ->
  source_port_of tcp <> 80 -> source_port_of tcp <> 443 ->
  status_map (fst (fst (firewall_run st ctx))) (make_pair ip tcp) =
    Some (fst (capture ctx (headers_length ip tcp)
                 (read_status st (ipv4 (remote (make_pair ip tcp)))))).
Proof.
  intros Hh H80 H443.
  assert (Hp : (source_port_of tcp =? 80) || (source_port_of tcp =? 443) = false).
  { apply orb_false_iff; split; apply Z.eqb_neq; assumption. }
  rewrite (firewall_run_inspected st ctx ip tcp Hh Hp). cbn [fst].
  apply update_status_map_self.
Qed.

Lemma X_inspected_pair_entry_witness :
  status_map (fst (fst (firewall_run empty_state (frame_payload 0))))
    (make_pair (mkIpv4Hdr 5 (le_load32 10 0 0 5) (le_load32 10 0 0 1))
               (mkTcpHdr (le_load16 15 161) (le_load16 38 4) 5)) = Some 0.
Proof.
  rewrite (X_inspected_pair_entry _ (frame_payload 0)
             (mkIpv4Hdr 5 (le_load32 10 0 0 5) (le_load32 10 0 0 1))
             (mkTcpHdr (le_load16 15 161) (le_load16 38 4) 5));
    [vm_compute; reflexivity | reflexivity | vm_compute; discriminate
    | vm_compute; discriminate].
Defined.

(** No sequence of invocations removes an entry of the per-pair map. *)
Theorem X_pair_entries_persist (st : State) (ctxs : list XdpContext) p :
  status_map st p <> None -> status_map (fst (run st ctxs)) p <> None.
Proof.
  revert st. induction ctxs as [|ctx rest IH]; intros st H; [exact H|].
  simpl. destruct (firewall_run st ctx) as [[st1 a] c] eqn:E.
  assert (H1 : status_map st1 p <> None).
  { pose proof (firewall_run_keeps_pairs st ctx p H) as K. rewrite E in K. exact K. }
  specialize (IH st1 H1). destruct (run st1 rest). exact IH.
Qed.

Lemma X_pair_entries_persist_witness :
  status_map (fst (run (mkState (fun _ => None) (fun _ => Some 2) [])
                       [frame_payload 100; frame_payload 0]))
             (mkEndpointPair ep_10_0_0_5 ep_10_0_0_1) <> None.
Proof. apply X_pair_entries_persist. discriminate. Defined.

Lemma firewall_run_events (st : State) (ctx : XdpContext) :
  exists new, events (fst (fst (firewall_run st ctx))) = events st ++ new /\
              (length new <= 1)%nat.
Proof.
  destruct (firewall_run_cases st ctx) as [-> | (ip & tcp & Hh & Hp)].
  - exists []. rewrite app_nil_r. auto.
  - rewrite (firewall_run_inspected st ctx ip tcp Hh Hp). cbn [fst].
    destruct (update_events st (make_pair ip tcp)
                (fst (capture ctx (headers_length ip tcp)
                        (read_status st (ipv4 (remote (make_pair ip tcp))))))
                (snd (capture ctx (headers_length ip tcp)
                        (read_status st (ipv4 (remote (make_pair ip tcp))))))) as [E|E];
      rewrite E; [exists []; rewrite app_nil_r | eexists]; split; try reflexivity; simpl; lia.
Qed.

(** A sequence of invocations only appends to the event log, at most one
    event per frame. *)
Theorem X_events_append_only (st : State) (ctxs : list XdpContext) :
  exists new, events (fst (run st ctxs)) = events st ++ new /\
              (length new <= length ctxs)%nat.
Proof.
  revert st. induction ctxs as [|ctx rest IH]; intros st.
  - exists []. rewrite app_nil_r. auto.
  - simpl. destruct (firewall_run st ctx) as [[st1 a] c] eqn:E.
    destruct (firewall_run_events st ctx) as (n1 & E1 & L1). rewrite E in E1. cbn in E1.
    destruct (IH st1) as (n2 & E2 & L2). destruct (run st1 rest) as [st2 cs].
    cbn in E2 |- *. exists (n1 ++ n2). rewrite E2, E1, app_assoc.
    split; [reflexivity|]. rewrite length_app. lia.
Qed.

Lemma capture_status_idem (ctx : XdpContext) (hl : nat) (s : Status) :
  fst (capture ctx hl (fst (capture ctx hl s))) = fst (capture ctx hl s).
Proof.
  destruct (capture_status ctx hl s) as [E | E]; rewrite E; [exact E|].
  rewrite (capture_pow_sent ctx hl _ (contains_set_pow s)). reflexivity.
Qed.

(** Running the classifier a second time on the same frame, right after the
    first, changes no map and emits no event. *)
Theorem X_replay_is_noop (st : State) (ctx : XdpContext) :
  let st' := fst (fst (firewall_run st ctx)) in
  fst (fst (firewall_run st' ctx)) = st'.
Proof.
  cbv zeta.
  destruct (firewall_run_cases st ctx) as [E | (ip & tcp & Hh & Hp)].
  - rewrite E. cbn [fst]. rewrite E. reflexivity.
  - rewrite (firewall_run_inspected st ctx ip tcp Hh Hp). cbn [fst].
    set (pair := make_pair ip tcp).
    set (hl := headers_length ip tcp).
    set (w := capture ctx hl (read_status st (ipv4 (remote pair)))).
    assert (Hw : fst (capture ctx hl (fst w)) = fst w)
      by (unfold w; apply capture_status_idem).
    unfold update at 1 2.
    destruct (status_map st pair) as [s0|] eqn:E;
      [destruct (Z.eqb_spec (fst w) s0) as [Heq|Hne]|].
    + rewrite (firewall_run_inspected st ctx ip tcp Hh Hp). cbn [fst].
      fold pair hl. fold w. unfold update. rewrite E.
      rewrite <- Heq, Z.eqb_refl. reflexivity.
    + rewrite (firewall_run_inspected _ ctx ip tcp Hh Hp). cbn [fst].
      fold pair hl. unfold update at 1.
      cbn [status_map list_map]. unfold map_set at 1 2.
      destruct (pair_eq_dec pair pair) as [_|]; [|congruence].
      unfold read_status at 1. cbn [list_map].
      destruct (bytes_eq_dec (ipv4 (remote pair)) (ipv4 (remote pair))) as [_|];
        [|congruence].
      fold w. rewrite Hw, Z.eqb_refl. reflexivity.
    + rewrite (firewall_run_inspected _ ctx ip tcp Hh Hp). cbn [fst].
      fold pair hl. unfold update at 1.
      cbn [status_map list_map]. unfold map_set at 1 2.
      destruct (pair_eq_dec pair pair) as [_|]; [|congruence].
      unfold read_status at 1. cbn [list_map].
      destruct (bytes_eq_dec (ipv4 (remote pair)) (ipv4 (remote pair))) as [_|];
        [|congruence].
      fold w. rewrite Hw, Z.eqb_refl. reflexivity.
Qed.

(** ** Event consumer *)

Section EventHandlerProofs.
Variable chk : list u8 -> bool.

Lemma handle_event_spec (st : State) (ev : Consumer.Event) :
  exists st', handle_event chk st ev = Some st' /\
    status_map st' = status_map st /\ events st' = events st /\
    list_map st' = if event_fails chk ev
                   then map_set bytes_eq_dec (list_map st) (ipv4 (remote (Consumer.pair ev))) 0
                   else list_map st.
Proof.
  unfold handle_event, event_fails.
  destruct (Consumer.event ev) as [b| |? ?]; [destruct (chk b)| |]; cbn; eauto.
Qed.

Lemma handle_records_spec (st : State) (evs : list Consumer.Event) :
  exists st', handle_records chk st evs = Some st' /\
    status_map st' = status_map st /\ events st' = events st /\
    (forall ev, In ev evs -> event_fails chk ev = true -> list_map st' (ipv4 (remote (Consumer.pair ev))) = Some 0) /\
    (forall k, list_map st' k = list_map st k \/
               (list_map st' k = Some 0 /\
                exists ev, In ev evs /\ event_fails chk ev = true /\ ipv4 (remote (Consumer.pair ev)) = k)).
Proof.
  revert st. induction evs as [|ev rest IH]; intros st.
  - exists st. simpl. intuition.
  - destruct (handle_event_spec st ev) as (st1 & E1 & S1 & V1 & L1).
    destruct (IH st1) as (st' & E' & S' & V' & B' & F').
    exists st'. simpl. rewrite E1. split; [exact E'|].
    split; [congruence|]. split; [congruence|]. split.
    + intros e [<- | Hin] Hf.
      * destruct (F' (ipv4 (remote (Consumer.pair ev)))) as [-> | [-> _]]; [|reflexivity].
        rewrite L1, Hf. unfold map_set. destruct (bytes_eq_dec _ _) as [_|n]; [reflexivity | now contradiction n].
      * exact (B' e Hin Hf).
    + intros k. destruct (F' k) as [-> | [H0 (e & Hin & Hf & Hk)]].
      * rewrite L1. destruct (event_fails chk ev) eqn:Hf; [|left; reflexivity].
        unfold map_set. destruct (bytes_eq_dec (ipv4 (remote (Consumer.pair ev))) k) as [Hk|]; [|left; reflexivity].
        right. split; [reflexivity|]. exists ev. auto.
      * right. split; [exact H0|]. exists e. auto.
Qed.

Lemma event_handler_spec (st : State) (bs : list (String.string * list Consumer.Event)) :
  exists st', event_handler chk st bs = Some st' /\
    status_map st' = status_map st /\ events st' = events st /\
    (forall evs ev, In ("events"%string, evs) bs -> In ev evs ->
       event_fails chk ev = true -> list_map st' (ipv4 (remote (Consumer.pair ev))) = Some 0) /\
    (forall k, list_map st' k = list_map st k \/
               (list_map st' k = Some 0 /\
                exists evs ev, In ("events"%string, evs) bs /\ In ev evs /\
                               event_fails chk ev = true /\ ipv4 (remote (Consumer.pair ev)) = k)).
Proof.
  revert st. induction bs as [|[name evs] rest IH]; intros st.
  - exists st. simpl. intuition.
  - simpl. destruct (String.eqb_spec name "events"%string) as [-> | Hn].
    + destruct (handle_records_spec st evs) as (st1 & E1 & S1 & V1 & B1 & F1).
      rewrite E1.
      destruct (IH st1) as (st' & E' & S' & V' & B' & F').
      exists st'. split; [exact E'|]. split; [congruence|]. split; [congruence|]. split.
      * intros es e [Heq | Hin] Hie Hf; [|exact (B' es e Hin Hie Hf)].
        injection Heq as <-.
        destruct (F' (ipv4 (remote (Consumer.pair e)))) as [-> | [-> _]]; [exact (B1 e Hie Hf) | reflexivity].
      * intros k. destruct (F' k) as [-> | [H0 (es & e & Hin & Hie & Hf & Hk)]].
        -- destruct (F1 k) as [-> | [H0 (e & Hie & Hf & Hk)]]; [left; reflexivity|].
           right. split; [exact H0|]. exists evs, e. auto.
        -- right. split; [exact H0|]. exists es, e. auto.
    + destruct (IH st) as (st' & E' & S' & V' & B' & F').
      exists st'. split; [exact E'|]. split; [exact S'|]. split; [exact V'|]. split.
      * intros es e [Heq | Hin] Hie Hf; [congruence | exact (B' es e Hin Hie Hf)].
      * intros k. destruct (F' k) as [-> | [H0 (es & e & Hin & Hie & Hf & Hk)]];
          [left; reflexivity|].
        right. split; [exact H0|]. exists es, e. auto.
Qed.

End EventHandlerProofs.

(** Only batches named ["events"] matter: dropping every other batch does not
    change what the handler does. *)
Theorem X_event_handler_ignores_other_sources chk (st : State) bs :
  event_handler chk st bs =
  event_handler chk st (filter (fun b => String.eqb (fst b) "events"%string) bs).
Proof.
  revert st. induction bs as [|[name evs] rest IH]; intros st; [reflexivity|].
  cbn [event_handler filter fst].
  destruct (String.eqb name "events"%string) eqn:En.
  - cbn [event_handler]. rewrite En.
    destruct (handle_records chk st evs); [apply IH | reflexivity].
  - apply IH.
Qed.

(** The handler never panics, and after it every remote IP of a record in an
    ["events"] batch with an invalid proof of work, too few bytes or an
    already connected peer has the blacklist value 0. *)
Theorem X_event_handler_blocks_failures chk (st : State) bs :
  exists st', event_handler chk st bs = Some st' /\
    forall evs ev, In ("events"%string, evs) bs -> In ev evs ->
      event_fails chk ev = true ->
      list_map st' (ipv4 (remote (Consumer.pair ev))) = Some 0.
Proof.
  destruct (event_handler_spec chk st bs) as (st' & E & _ & _ & B & _).
  exists st'. auto.
Qed.

Definition ev_not_enough : Consumer.Event :=
  Consumer.mkEvent (mkEndpointPair ep_10_0_0_5 ep_10_0_0_1) NotEnoughBytesForPow.

Lemma X_event_handler_blocks_failures_witness :
  exists st', event_handler (fun _ => true) empty_state
                [("events"%string, [ev_not_enough])] = Some st' /\
              list_map st' [10; 0; 0; 5] = Some 0.
Proof.
  destruct (X_event_handler_blocks_failures (fun _ => true) empty_state
              [("events"%string, [ev_not_enough])]) as (st' & E & B).
  exists st'. split; [exact E|].
  apply (B [ev_not_enough] ev_not_enough); simpl; auto.
Defined.

(** The handler touches only the blacklist, never removes an entry, and
    changes only the entries of remote IPs of failing records of
    ["events"] batches, to the value 0. *)
Theorem X_event_handler_frame chk (st : State) bs :
  exists st', event_handler chk st bs = Some st' /\
    status_map st' = status_map st /\ events st' = events st /\
    forall k, list_map st' k = list_map st k \/
      (list_map st' k = Some 0 /\
       exists evs ev, In ("events"%string, evs) bs /\ In ev evs /\
         event_fails chk ev = true /\ ipv4 (remote (Consumer.pair ev)) = k).
Proof.
  destruct (event_handler_spec chk st bs) as (st' & E & S & V & _ & F).
  exists st'. auto.
Qed.

(** ** Control plane *)

(** A malformed command is skipped: the connection behaves as if only the
    decoded commands had been sent. *)
Theorem X_connection_skips_malformed (s : Control.CtlState) items :
  Control.handle_connection s items =
  Control.handle_connection s (filter Control.is_decoded items).
Proof.
  revert s. induction items as [|[c|] rest IH]; intros s; [reflexivity| |apply IH].
  simpl. destruct (Control.handle_command s c); [apply IH | reflexivity].
Qed.

(** A [Block] or [Unblock] of an IPv6 address panics and ends the connection
    before any later command; IPv6 [FilterRemoteAddr] and [Disconnected]
    are skipped and the connection goes on. *)
Theorem X_connection_ipv6 (s : Control.CtlState) segs port pk rest :
  Control.handle_connection s (Control.Decoded (Control.Block (V6 segs)) :: rest) = (s, true) /\
  Control.handle_connection s (Control.Decoded (Control.Unblock (V6 segs)) :: rest) = (s, true) /\
  Control.handle_connection s
    (Control.Decoded (Control.FilterRemoteAddr (Control.SocketV6 segs port)) :: rest) =
  Control.handle_connection s rest /\
  Control.handle_connection s
    (Control.Decoded (Control.Disconnected (Control.SocketV6 segs port) pk) :: rest) =
  Control.handle_connection s rest.
Proof. repeat split. Qed.

(** [Block] twice leaves the same blacklist as [Block] once, and neither
    panics. *)
Theorem X_block_idempotent (s : Control.CtlState) (ip : list u8) :
  let c := Control.Decoded (Control.Block (V4 ip)) in
  snd (Control.handle_connection s [c; c]) = false /\
  snd (Control.handle_connection s [c]) = false /\
  forall k, list_map (Control.store (fst (Control.handle_connection s [c; c]))) k =
            list_map (Control.store (fst (Control.handle_connection s [c]))) k.
Proof.
  cbn. repeat split. intros k. unfold map_set.
  destruct (bytes_eq_dec ip k); reflexivity.
Qed.

(** [Unblock] of an IP that is not in the blacklist leaves the blacklist as
    it was. *)
Theorem X_unblock_absent_noop (s : Control.CtlState) (ip : list u8) :
  list_map (Control.store s) ip = None ->
  snd (Control.handle_connection s [Control.Decoded (Control.Unblock (V4 ip))]) = false /\
  forall k, list_map (Control.store (fst (Control.handle_connection s
                        [Control.Decoded (Control.Unblock (V4 ip))]))) k =
            list_map (Control.store s) k.
Proof.
  intros H. cbn. split; [reflexivity|]. intros k. unfold map_delete.
  destruct (bytes_eq_dec ip k) as [<-|]; [symmetry; exact H | reflexivity].
Qed.

Definition ctl_empty : Control.CtlState :=
  Control.mkCtl empty_state (fun _ => None) (fun _ => None) (fun _ => None).

Lemma X_unblock_absent_noop_witness :
  snd (Control.handle_connection ctl_empty
         [Control.Decoded (Control.Unblock (V4 [192; 168; 1; 10]))]) = false.
Proof. exact (proj1 (X_unblock_absent_noop ctl_empty [192; 168; 1; 10] eq_refl)). Defined.

(** [Block] then [Unblock] of an IP removes it from the blacklist and leaves
    every other entry as it was. *)
Theorem X_block_then_unblock (s : Control.CtlState) (ip : list u8) :
  let r := Control.handle_connection s
             [Control.Decoded (Control.Block (V4 ip));
              Control.Decoded (Control.Unblock (V4 ip))] in
  snd r = false /\
  list_map (Control.store (fst r)) ip = None /\
  forall k, k <> ip -> list_map (Control.store (fst r)) k = list_map (Control.store s) k.
Proof.
  cbn. split; [reflexivity|]. unfold map_delete, map_set. split.
  - destruct (bytes_eq_dec ip ip); congruence.
  - intros k Hk. destruct (bytes_eq_dec ip k); [congruence | reflexivity].
Qed.

Lemma u16_be_roundtrip (p : Z) :
  0 <= p < 65536 ->
  match u16_to_be_bytes p with [b0; b1] => u16_from_be_bytes b0 b1 | _ => 0 end = p.
Proof.
  intros Hp. unfold u16_to_be_bytes, u16_from_be_bytes.
  rewrite !byte_of_spec by lia. eval_pow8.
  rewrite Z.shiftl_mul_pow2 by lia. change (2 ^ 8) with 256.
  rewrite (byte_pick p 256 (p mod 256) (p / 256) 0), (byte_pick p 1 0 (p mod 256) (p / 256));
    try lia; pose proof (Z.mod_pos_bound p 256); pose proof (Z.div_mod p 256); lia.
Qed.

(** [FilterRemoteAddr] of an IPv4 socket address stores a [pending_peers]
    key whose port bytes, read big-endian as [Endpoint]'s [Debug] does, are
    the port. *)
Theorem X_filter_remote_addr_port (s : Control.CtlState) (ip : list u8) (port : Z) :
  0 <= port < 65536 ->
  exists s' b0 b1,
    Control.handle_command s (Control.FilterRemoteAddr (Control.SocketV4 ip port)) = Some s' /\
    Control.pending_peers s' (mkEndpoint ip [b0; b1]) = Some 0 /\
    u16_from_be_bytes b0 b1 = port.
Proof.
  intros Hp. pose proof (u16_be_roundtrip port Hp) as R.
  unfold u16_to_be_bytes in R.
  eexists; exists (byte_of port 1), (byte_of port 0). split; [reflexivity|]. split.
  - cbn. unfold map_set. destruct (endpoint_eq_dec _ _) as [_|n]; [reflexivity|].
    exfalso. apply n. reflexivity.
  - exact R.
Qed.

Lemma X_filter_remote_addr_port_witness :
  exists s' b0 b1,
    Control.handle_command ctl_empty
      (Control.FilterRemoteAddr (Control.SocketV4 [10; 0; 0; 5] 9732)) = Some s' /\
    Control.pending_peers s' (mkEndpoint [10; 0; 0; 5] [b0; b1]) = Some 0 /\
    u16_from_be_bytes b0 b1 = 9732.
Proof. apply X_filter_remote_addr_port. lia. Defined.

(** ** Socket permissions *)

(** After [ensure_socket_permissions] (with [chmod] succeeding) the socket is
    readable and writable by owner, group and others, and a second call
    changes nothing. *)
Theorem X_socket_permissions (mode : Z) :
  Z.land (ensure_socket_permissions mode) 438 = 438 /\
  ensure_socket_permissions (ensure_socket_permissions mode) =
  ensure_socket_permissions mode.
Proof.
  assert (H : Z.land (ensure_socket_permissions mode) 438 = 438).
  { unfold ensure_socket_permissions.
    destruct (Z.eqb_spec (Z.land mode 438) 438) as [E|E]; cbn [negb]; [exact E|].
    apply Z.bits_inj; intro i. rewrite Z.land_spec, Z.lor_spec.
    unfold REQUIRED_PERMS.
    destruct (Z.testbit 438 i) eqn:T; [|apply andb_false_r].
    rewrite andb_true_r. apply orb_true_iff. right.
    destruct (Z.neg_nonneg_cases i) as [Hi|Hi];
      [rewrite Z.testbit_neg_r in T by exact Hi; discriminate|].
    assert (E2 : 438%Z = Z.land 502 438) by reflexivity. rewrite E2, Z.land_spec in T.
    apply andb_prop in T. apply T. }
  split; [exact H|].
  unfold ensure_socket_permissions at 1. rewrite H, Z.eqb_refl. reflexivity.
Qed.

(** Commands sent on one connection compose: the commands after a prefix run
    on the maps the prefix left, unless the prefix panicked, which ends the
    connection. *)
Theorem X_connection_app (s : Control.CtlState) xs ys :
  Control.handle_connection s (xs ++ ys) =
  let (s', panicked) := Control.handle_connection s xs in
  if panicked then (s', true) else Control.handle_connection s' ys.
Proof.
  revert s. induction xs as [|[c|] rest IH]; intros s; [reflexivity| |apply IH].
  cbn [app Control.handle_connection].
  destruct (Control.handle_command s c); [apply IH | reflexivity].
Qed.

(** ** Start-up blacklist *)

(** Loading the start-up blacklist succeeds exactly when every address is
    IPv4; then the addresses listed are blocked and no other entry
    changes. *)
Theorem X_load_blacklist (st : State) (ips : list IpAddr) :
  (forallb is_v4 ips = false -> load_blacklist st ips = None) /\
  (forallb is_v4 ips = true ->
   exists st', load_blacklist st ips = Some st' /\
     status_map st' = status_map st /\ events st' = events st /\
     forall k, list_map st' k =
               if existsb (fun ip => match ip with
                                     | V4 o => if bytes_eq_dec o k then true else false
                                     | V6 _ => false end) ips
               then Some 0 else list_map st k).
Proof.
  revert st. induction ips as [|[o|segs] rest IH]; intros st.
  - split; [discriminate|]. intros _. exists st. repeat split.
  - destruct (IH (mkState (map_set bytes_eq_dec (list_map st) o 0)
                          (status_map st) (events st))) as [IH1 IH2].
    split.
    + intros H. apply IH1. exact H.
    + intros H. destruct (IH2 H) as (st' & E & Hs & He & Hk).
      exists st'. split; [exact E|]. split; [exact Hs|]. split; [exact He|].
      intros k. rewrite Hk. cbn [existsb list_map]. unfold map_set.
      destruct (bytes_eq_dec o k); cbn [orb];
        destruct (existsb _ rest); reflexivity.
  - split; [reflexivity|]. discriminate.
Qed.

Lemma X_load_blacklist_witness :
  exists st', load_blacklist empty_state [V4 [10; 0; 0; 5]; V4 [10; 0; 0; 7]] = Some st' /\
     status_map st' = status_map empty_state /\ events st' = events empty_state /\
     forall k, list_map st' k =
               if existsb (fun ip => match ip with
                                     | V4 o => if bytes_eq_dec o k then true else false
                                     | V6 _ => false end) [V4 [10; 0; 0; 5]; V4 [10; 0; 0; 7]]
               then Some 0 else list_map empty_state k.
Proof. apply (proj2 (X_load_blacklist empty_state _)). reflexivity. Defined.
